(** * trinity.extensibility.plugin: plugin lifecycle and plugin context

    A shallow embedding of [trinity/extensibility/plugin.py].  Python
    methods become computations in a small monad that threads the state of
    the receiver ([self]), accumulates the calls made on external
    collaborators (the lahja endpoint, the logging module, the process
    context) as a trace, and may end in a Python exception.  State changes
    and trace entries made before an exception is raised are kept, as in
    Python. *)

From Stdlib Require Import ZArith.
From stdpp Require Import base option list gmap strings.

Open Scope string_scope.

(** ** Values and external objects *)

(** Values stored in [boot_kwargs] (typed [Dict[str, Any]] in the source). *)
Inductive PyVal :=
| PyNone
| PyInt (z : Z)
| PyStr (s : string)
| PyObj (addr : nat).

(** A lahja [Endpoint] is an external object; only its identity matters. *)
Record Endpoint := { endpoint_addr : nat }.

(** [argparse.Namespace] and [trinity.config.TrinityConfig] objects are
    never inspected by this module: they are opaque references. *)
Record Namespace := { namespace_addr : nat }.
Record TrinityConfig := { trinity_config_addr : nat }.

(** [logging.INFO] *)
Definition logging_INFO : Z := 20.

(** Exceptions this module raises or lets escape. *)
Inductive Exn :=
| EventBusNotReady (msg : string)
| AttributeError (msg : string)
| TypeError (msg : string)
| KeyError (key : string)
| Exception (msg : string).

(** Events of [trinity.events] and [trinity.extensibility.events];
    [PluginStartedEvent] carries [type(self)], a class, named here by its
    class name. *)
Inductive BaseEvent :=
| ShutdownRequest
| PluginStartedEvent (plugin_type : string).

(** [lahja.BroadcastConfig(filter_endpoint=...)] *)
Record BroadcastConfig := { filter_endpoint : option string }.

(** Signals of the graceful termination helper. *)
Inductive Signal := Interrupt | ForcedTermination.

(** Calls on external collaborators, in the order they are made:
    [broadcast], [connect_no_wait] and [stop] of a lahja endpoint,
    [setup_queue_logging] of [trinity.utils.logging], the [logging] module,
    [Process.start], signals and waits of the process termination helper,
    [asyncio.ensure_future].  [Invoke m] marks that method [m] of the
    plugin has been entered. *)
Inductive Action :=
| Broadcast (bus : Endpoint) (ev : BaseEvent) (config : option BroadcastConfig)
| ConnectNoWait (bus : Endpoint)
| BusStop (bus : Endpoint)
| SetupQueueLogging (log_queue level : PyVal)
| LogInfo (logger msg : string)
| LogError (logger msg : string)
| ProcessStart (pid : nat) (target : string)
| SendSignal (pid : nat) (sig : Signal)
| WaitGrace (pid : nat)
| EnsureFuture (coro : string)
| Invoke (method : string).

(** ** The monad of method bodies *)

Record Out (S A : Type) := mkOut {
  emitted : list Action;
  final : S;
  result : Exn + A;
}.
Arguments mkOut {S A} _ _ _.
Arguments emitted {S A} _.
Arguments final {S A} _.
Arguments result {S A} _.

Definition M (S A : Type) : Type := S → Out S A.

Section monad.
Context {S : Type}.

Definition ret {A} (a : A) : M S A := λ s, mkOut [] s (inr a).

Definition bind {A B} (m : M S A) (f : A → M S B) : M S B := λ s,
  let o := m s in
  match result o with
  | inl e => mkOut (emitted o) (final o) (inl e)
  | inr a =>
      let o' := f a (final o) in
      mkOut (emitted o ++ emitted o') (final o') (result o')
  end.

Definition raise {A} (e : Exn) : M S A := λ s, mkOut [] s (inl e).
Definition emit (a : Action) : M S unit := λ s, mkOut [a] s (inr tt).
Definition get : M S S := λ s, mkOut [] s (inr s).
Definition modify (f : S → S) : M S unit := λ s, mkOut [] (f s) (inr tt).

(** the Python statement [pass] *)
Definition pass : M S unit := ret tt.
End monad.

Notation "x ← m ; k" := (bind m (λ x, k))
  (at level 20, m at level 100, k at level 200, only parsing).
Notation "m ;; k" := (bind m (λ _, k))
  (at level 100, k at level 200, right associativity).

(** ** PluginContext *)

Module PluginContext.

Record t := mk {
  event_bus : Endpoint;
  boot_kwargs : option (gmap string PyVal);
  args : option Namespace;
  trinity_config : option TrinityConfig;
}.

(** [PluginContext.__init__] *)
Definition __init__ (endpoint : Endpoint) : t :=
  {| event_bus := endpoint;
     boot_kwargs := None;
     args := None;
     trinity_config := None |}.

Section shutdown.
(** [trinity.constants.MAIN_EVENTBUS_ENDPOINT] is not among the
    sources; its value is a parameter. *)
Variable MAIN_EVENTBUS_ENDPOINT : string.

Definition shutdown_host : M t unit :=
  self ← get;
  emit (Broadcast (event_bus self) ShutdownRequest
          (Some {| filter_endpoint := Some MAIN_EVENTBUS_ENDPOINT |})).
End shutdown.

End PluginContext.

(** ** Plugin instances, the host's process table, plugin classes *)

(** The object returned by [ctx.Process(target=...)]. *)
Record Process := { pid : nat; target : string }.

(** Instance attributes of a plugin. *)
Record Plugin := mkPlugin {
  context : option PluginContext.t;
  running : bool;
  _process : option Process;
}.

(** A freshly constructed plugin: the class attributes
    [context = None], [running = False], [_process = None]. *)
Definition new_plugin : Plugin :=
  {| context := None; running := false; _process := None |}.

(** What a plugin method can read and write: the plugin itself and the
    operating system's processes.  [heeds p s] tells whether process [p]
    exits when it is sent signal [s]. *)
Record World := mkWorld {
  self : Plugin;
  alive : gset nat;
  next_pid : nat;
  heeds : nat → Signal → bool;
}.

Definition set_self (f : Plugin → Plugin) (w : World) : World :=
  {| self := f (self w); alive := alive w;
     next_pid := next_pid w; heeds := heeds w |}.

(** Base classes a concrete plugin derives from. *)
Inductive Base :=
| BaseSyncStopPlugin
| BaseAsyncStopPlugin
| BaseMainProcessPlugin
| BaseIsolatedPlugin.

(** A concrete plugin class: the base it derives from, its name
    ([type(self)]), its [name] property (abstract in [BasePlugin], so
    every instantiable class defines it), and the methods [start] and
    [stop] when the class overrides them. *)
Record PluginClass := {
  base : Base;
  type_name : string;
  name : string;
  cls_start : option (M World unit);
  cls_stop : option (M World unit);
}.

(** ** BasePlugin *)

Module BasePlugin.
Section methods.
Variable cls : PluginClass.

(** [self.logger]: the logger's name *)
Definition logger : string :=
  "trinity.extensibility.plugin.BasePlugin#" ++ name cls.

Definition event_bus : M World Endpoint :=
  w ← get;
  match context (self w) with
  | None =>
      raise (EventBusNotReady
               "Tried accessing ``event_bus`` before ``ready`` was called")
  | Some c => ret (PluginContext.event_bus c)
  end.

Definition set_context (context : PluginContext.t) : M World unit :=
  modify (set_self (λ p,
    {| context := Some context; running := running p;
       _process := _process p |})).

Definition ready : M World unit := pass.

Definition start : M World unit := pass.

(** The [start] method an instance of [cls] has: the class's own when
    it overrides it. *)
Definition resolve_start : M World unit :=
  default start (cls_start cls).

(** The call [self.start()]. *)
Definition call_start : M World unit :=
  emit (Invoke "start");;
  resolve_start.

Definition set_running (b : bool) : M World unit :=
  modify (set_self (λ p,
    {| context := context p; running := b; _process := _process p |})).

Definition boot : M World unit :=
  set_running true;;
  call_start;;
  bus ← event_bus;
  emit (Broadcast bus (PluginStartedEvent (type_name cls)) None);;
  emit (LogInfo logger ("Plugin started: " ++ name cls)).
End methods.
End BasePlugin.

(** ** BaseSyncStopPlugin, BaseAsyncStopPlugin *)

Module BaseSyncStopPlugin.
Definition stop : M World unit := pass.
End BaseSyncStopPlugin.

Module BaseAsyncStopPlugin.
(** [async def stop]: the computation is the body of the coroutine, run
    when the caller awaits it. *)
Definition stop : M World unit := pass.
End BaseAsyncStopPlugin.

(** ** trinity.utils.ipc *)

(** Modelled from the spec: the forced termination signal is the one a
    process cannot ignore ("termination is guaranteed by escalation", "no
    immortal subprocess under any input"); the interrupt signal can be
    ignored. *)
Definition cannot_be_ignored (s : Signal) : bool :=
  match s with
  | ForcedTermination => true
  | Interrupt => false
  end.

(** Modelled from the spec: sending a signal to a process, as the
    graceful termination of [trinity.utils.ipc] (not among the sources)
    does it; the process exits when it heeds the signal or cannot ignore
    it. *)
Definition send_signal (p : nat) (s : Signal) : M World unit :=
  emit (SendSignal p s);;
  modify (λ w,
    if cannot_be_ignored s || heeds w p s
    then {| self := self w; alive := alive w ∖ {[p]};
            next_pid := next_pid w; heeds := heeds w |}
    else w).

(** Modelled from the spec: the test "the process has not exited" of the
    graceful termination. *)
Definition has_exited (p : nat) : M World bool :=
  w ← get; ret (bool_decide (p ∉ alive w)).

(** Modelled from the spec: [trinity.utils.ipc.kill_process_gracefully] is
    not among the sources.  The spec's graceful process termination: send
    an interrupt signal; wait a bounded grace period; if the process has
    not exited, send a forced termination signal; the failure of the
    process to exit after the graceful signal is logged as a fault, and
    nothing is raised.  The spec is silent on [None] as the process;
    Python's attribute access on [None] raises [AttributeError]. *)
Definition kill_process_gracefully
    (process : option Process) (logger : string) : M World unit :=
  match process with
  | None => raise (AttributeError "'NoneType' object has no attribute 'pid'")
  | Some p =>
      send_signal (pid p) Interrupt;;
      emit (WaitGrace (pid p));;
      gone ← has_exited (pid p);
      if gone then ret tt
      else
        send_signal (pid p) ForcedTermination;;
        emit (LogError logger
                "process did not exit gracefully, termination was forced")
  end.

(** ** BaseIsolatedPlugin *)

(** [ctx.Process(target=...)] of the multiprocessing context
    [trinity.utils.mp.ctx]: a new process object, identified here by the
    process id it will run under. *)
Definition ctx_Process (target : string) : M World Process :=
  w ← get;
  modify (λ w, {| self := self w; alive := alive w;
                  next_pid := Datatypes.S (next_pid w); heeds := heeds w |});;
  ret {| pid := next_pid w; target := target |}.

(** [Process.start()]: the operating system runs the target in a new
    process; the call does not wait for it. *)
Definition Process_start (p : Process) : M World unit :=
  emit (ProcessStart (pid p) (target p));;
  modify (λ w, {| self := self w; alive := {[pid p]} ∪ alive w;
                  next_pid := next_pid w; heeds := heeds w |}).

(** [d[key]] and [d.get(key, default)] where [d] is the value of
    [self.context.boot_kwargs] *)
Definition self_context_boot_kwargs : M World (option (gmap string PyVal)) :=
  w ← get;
  match context (self w) with
  | None =>
      raise (AttributeError "'NoneType' object has no attribute 'boot_kwargs'")
  | Some c => ret (PluginContext.boot_kwargs c)
  end.

Definition subscript (d : option (gmap string PyVal)) (key : string)
    : M World PyVal :=
  match d with
  | None => raise (TypeError "'NoneType' object is not subscriptable")
  | Some d =>
      match d !! key with
      | None => raise (KeyError key)
      | Some v => ret v
      end
  end.

Definition dict_get (d : option (gmap string PyVal)) (key : string)
    (dflt : PyVal) : M World PyVal :=
  match d with
  | None => raise (AttributeError "'NoneType' object has no attribute 'get'")
  | Some d => ret (default dflt (d !! key))
  end.

Module BaseIsolatedPlugin.
Section methods.
Variable cls : PluginClass.

Definition set_process (p : option Process) : M World unit :=
  modify (set_self (λ s,
    {| context := context s; running := running s; _process := p |})).

Definition boot : M World unit :=
  BasePlugin.set_running true;;
  p ← ctx_Process "_prepare_start";
  set_process (Some p);;
  Process_start p;;
  emit (LogInfo (BasePlugin.logger cls) ("Plugin started: " ++ name cls)).

(** The entry point of the spawned process; it runs on the child's copy
    of the plugin. *)
Definition _prepare_start : M World unit :=
  kwargs ← self_context_boot_kwargs;
  log_queue ← subscript kwargs "log_queue";
  kwargs ← self_context_boot_kwargs;
  level ← dict_get kwargs "log_level" (PyInt logging_INFO);
  emit (SetupQueueLogging log_queue level);;
  bus ← BasePlugin.event_bus;
  emit (ConnectNoWait bus);;
  bus ← BasePlugin.event_bus;
  emit (Broadcast bus (PluginStartedEvent (type_name cls)) None);;
  BasePlugin.call_start cls.

Definition stop : M World unit :=
  w ← get;
  match context (self w) with
  | None =>
      raise (AttributeError "'NoneType' object has no attribute 'event_bus'")
  | Some c =>
      emit (BusStop (PluginContext.event_bus c));;
      w ← get;
      kill_process_gracefully (_process (self w)) (BasePlugin.logger cls)
  end.
End methods.
End BaseIsolatedPlugin.

(** ** Method resolution *)

(** [self.boot()] *)
Definition boot (cls : PluginClass) : M World unit :=
  match base cls with
  | BaseIsolatedPlugin => BaseIsolatedPlugin.boot cls
  | _ => BasePlugin.boot cls
  end.

(** [self.stop()] ([await self.stop()] for an asynchronous-stop plugin);
    [BaseMainProcessPlugin] defines no [stop]. *)
Definition stop (cls : PluginClass) : M World unit :=
  match cls_stop cls with
  | Some m => m
  | None =>
      match base cls with
      | BaseSyncStopPlugin => BaseSyncStopPlugin.stop
      | BaseAsyncStopPlugin => BaseAsyncStopPlugin.stop
      | BaseIsolatedPlugin => BaseIsolatedPlugin.stop cls
      | BaseMainProcessPlugin =>
          raise (AttributeError "object has no attribute 'stop'")
      end
  end.

(** Is the plugin run inside the host process? *)
Definition in_process (cls : PluginClass) : bool :=
  match base cls with BaseIsolatedPlugin => false | _ => true end.

(** ** DebugPlugin *)

Module DebugPlugin.
Definition name : string := "Debug Plugin".

Definition logger : string :=
  "trinity.extensibility.plugin.BasePlugin#" ++ name.

(** [asyncio.ensure_future(self.count_forever())] only schedules the
    coroutine; [count_forever] itself never returns and is not run
    here. *)
Definition start : M World unit :=
  emit (LogInfo logger "Debug plugin: start called");;
  emit (EnsureFuture "count_forever").

Definition stop : M World unit :=
  emit (LogInfo logger "Debug plugin: stop called").

Definition class : PluginClass :=
  Build_PluginClass BaseAsyncStopPlugin "DebugPlugin" name
    (Some start) (Some stop).
End DebugPlugin.

(** ** Observations on traces *)

(** Is the action the broadcast of a [PluginStartedEvent] for class [ty]? *)
Definition is_started (ty : string) (a : Action) : bool :=
  match a with
  | Broadcast _ (PluginStartedEvent t) _ => bool_decide (t = ty)
  | _ => false
  end.

Fixpoint count_started (ty : string) (tr : list Action) : nat :=
  match tr with
  | [] => 0
  | a :: tr => (if is_started ty a then 1 else 0) + count_started ty tr
  end.

(** Every [PluginStartedEvent] broadcast of the trace comes after an
    [Invoke "start"]; [seen] tells whether [start] was invoked before the
    trace begins. *)
Fixpoint started_after_start (ty : string) (seen : bool) (tr : list Action)
    : bool :=
  match tr with
  | [] => true
  | Invoke m :: tr => started_after_start ty (seen || bool_decide (m = "start")) tr
  | a :: tr =>
      (if is_started ty a then seen else true) && started_after_start ty seen tr
  end.

(** What the bus and the other collaborators see of a [boot()]: the calls
    of the host and, for an isolated plugin, those of the process it
    spawned, which starts from the plugin as it is when [boot()] is done. *)
Definition boot_trace (cls : PluginClass) (w : World) : list Action :=
  emitted (boot cls w) ++
  (if in_process cls then []
   else emitted (BaseIsolatedPlugin._prepare_start cls (final (boot cls w)))).

(** ** Sample plugins and contexts *)

Definition sample_bus : Endpoint := {| endpoint_addr := 1 |}.
Definition other_bus : Endpoint := {| endpoint_addr := 2 |}.

Definition sample_kwargs : gmap string PyVal := {[ "log_queue" := PyObj 5 ]}.

Definition sample_context : PluginContext.t :=
  PluginContext.mk sample_bus (Some sample_kwargs) None None.

Definition other_context : PluginContext.t :=
  PluginContext.__init__ other_bus.

(** No process running, and a process table whose processes heed no
    signal. *)
Definition sample_world : World := mkWorld new_plugin ∅ 100 (λ _ _, false).

(** The sample world once the sample context has been injected. *)
Definition ready_world : World :=
  final (BasePlugin.set_context sample_context sample_world).

Definition SyncSample : PluginClass :=
  Build_PluginClass BaseSyncStopPlugin "SyncSample" "sync sample" None None.

Definition IsolatedSample : PluginClass :=
  Build_PluginClass BaseIsolatedPlugin "IsolatedSample" "isolated sample"
    None None.

(** ** Abbreviations used in the statements *)

(** The notice every [boot()] logs. *)
Definition started_notice (cls : PluginClass) : Action :=
  LogInfo (BasePlugin.logger cls) ("Plugin started: " ++ name cls).

(** The world once [self.running = True] has been executed. *)
Definition now_running (w : World) : World :=
  final (BasePlugin.set_running true w).

(** The process object made by [BaseIsolatedPlugin.boot] in world [w]. *)
Definition spawned (w : World) : Process :=
  {| pid := next_pid w; target := "_prepare_start" |}.

(** An outcome with one more action in front. *)
Definition prepend {S A} (a : Action) (o : Out S A) : Out S A :=
  mkOut (a :: emitted o) (final o) (result o).

(** The message of [EventBusNotReady] *)
Definition not_ready_msg : string :=
  "Tried accessing ``event_bus`` before ``ready`` was called".

(** ** DebugPlugin.count_forever *)

(** What the counter coroutine does: records on the plugin's logger and
    sleeps of the event loop. *)
Inductive Tick :=
| LogCount (logger : string) (i : Z)
| Sleep (seconds : Z).

(** The loop [while True: self.logger.info(i); i += 1; await
    asyncio.sleep(1)] never ends; [count_forever_loop fuel i] is what its
    first [fuel] iterations do when the counter is [i]. *)
Fixpoint count_forever_loop (fuel : nat) (i : Z) : list Tick :=
  match fuel with
  | O => []
  | Datatypes.S fuel =>
      LogCount DebugPlugin.logger i :: Sleep 1 ::
      count_forever_loop fuel (i + 1)
  end.

(** [count_forever] starts the loop with [i = 0]. *)
Definition count_forever (fuel : nat) : list Tick :=
  count_forever_loop fuel 0.

(** ** More sample plugins *)

(** An in-process plugin whose [start] raises. *)
Definition FailingSample : PluginClass :=
  Build_PluginClass BaseSyncStopPlugin "FailingSample" "failing sample"
    (Some (raise (Exception "start failed"))) None.

(** A world whose plugin holds a context fresh from
    [PluginContext(endpoint)]. *)
Definition fresh_context_world : World :=
  final (BasePlugin.set_context (PluginContext.__init__ sample_bus) sample_world).

(** * Properties *)

(** ** The monad *)

Section monad_facts.
Context {S A B : Type}.
Implicit Types (m : M S A) (f : A → M S B).

Lemma bind_inl m f s e :
  result (m s) = inl e →
  bind m f s = mkOut (emitted (m s)) (final (m s)) (inl e).
Proof. unfold bind. intros ->. reflexivity. Qed.

Lemma bind_inr m f s a :
  result (m s) = inr a →
  bind m f s =
    mkOut (emitted (m s) ++ emitted (f a (final (m s))))
          (final (f a (final (m s)))) (result (f a (final (m s)))).
Proof. unfold bind. intros ->. reflexivity. Qed.

Lemma bind_assoc {C} m f (g : B → M S C) s :
  bind (bind m f) g s = bind m (λ a, bind (f a) g) s.
Proof.
  unfold bind. destruct (result (m s)) as [e|a]; simpl; [done|].
  destruct (result (f a (final (m s)))); simpl; [done|].
  by rewrite app_assoc.
Qed.

(** What was emitted before an exception stays emitted. *)
Lemma bind_emitted_prefix m f s :
  emitted (m s) `prefix_of` emitted (bind m f s).
Proof.
  unfold bind. destruct (result (m s)); simpl.
  - reflexivity.
  - by apply prefix_app_r.
Qed.
End monad_facts.

Section monad_steps.
Context {S B : Type}.

Lemma out_eta (o : Out S B) : mkOut (emitted o) (final o) (result o) = o.
Proof. by destruct o. Qed.

Lemma bind_ret {A} (a : A) (f : A → M S B) s : bind (ret a) f s = f a s.
Proof. unfold bind, ret. simpl. apply out_eta. Qed.

Lemma bind_get (f : S → M S B) s : bind get f s = f s s.
Proof. unfold bind, get. simpl. apply out_eta. Qed.

Lemma bind_modify (g : S → S) (f : unit → M S B) s :
  bind (modify g) f s = f tt (g s).
Proof. unfold bind, modify. simpl. apply out_eta. Qed.

Lemma bind_emit (a : Action) (f : unit → M S B) s :
  bind (emit a) f s = prepend a (f tt s).
Proof. reflexivity. Qed.

Lemma bind_raise {A} (e : Exn) (f : A → M S B) s :
  bind (raise e) f s = mkOut [] s (inl e).
Proof. reflexivity. Qed.
End monad_steps.

(** ** PluginContext.shutdown_host *)

(** C5: every call of [shutdown_host] broadcasts exactly one
    [ShutdownRequest], on the context's own bus, with a broadcast
    configuration that filters to the main endpoint; it makes no other
    call (it waits for nothing), returns [None], and no plugin takes part
    in it. *)
Theorem shutdown_host_broadcasts_once (MAIN : string) (c : PluginContext.t) :
  emitted (PluginContext.shutdown_host MAIN c) =
    [Broadcast (PluginContext.event_bus c) ShutdownRequest
       (Some {| filter_endpoint := Some MAIN |})]
  ∧ result (PluginContext.shutdown_host MAIN c) = inr tt.
Proof. split; reflexivity. Qed.

(** C10: [shutdown_host] reads the bus handle only: whatever boot
    parameters, parsed arguments and host configuration the context holds
    (unset or not), the call does the same, and it leaves the four fields
    of the context as they were. *)
Theorem shutdown_host_frame (MAIN : string) (c : PluginContext.t)
    (kwargs : option (gmap string PyVal)) (args : option Namespace)
    (config : option TrinityConfig) :
  let c' := PluginContext.mk (PluginContext.event_bus c) kwargs args config in
  emitted (PluginContext.shutdown_host MAIN c') =
    emitted (PluginContext.shutdown_host MAIN c)
  ∧ result (PluginContext.shutdown_host MAIN c') =
      result (PluginContext.shutdown_host MAIN c)
  ∧ final (PluginContext.shutdown_host MAIN c) = c
  ∧ final (PluginContext.shutdown_host MAIN c') = c'.
Proof. repeat split; reflexivity. Qed.

(** ** BasePlugin.event_bus and BasePlugin.set_context *)

Lemma event_bus_unset (w : World) :
  context (self w) = None →
  BasePlugin.event_bus w =
    mkOut [] w
      (inl (EventBusNotReady
              "Tried accessing ``event_bus`` before ``ready`` was called")).
Proof. unfold BasePlugin.event_bus, bind, get. simpl. intros ->. reflexivity. Qed.

Lemma event_bus_set (w : World) (c : PluginContext.t) :
  context (self w) = Some c →
  BasePlugin.event_bus w = mkOut [] w (inr (PluginContext.event_bus c)).
Proof. unfold BasePlugin.event_bus, bind, get. simpl. intros ->. reflexivity. Qed.

Lemma bind_event_bus_set {B} (f : Endpoint → M World B) (w : World)
    (c : PluginContext.t) :
  context (self w) = Some c →
  bind BasePlugin.event_bus f w = f (PluginContext.event_bus c) w.
Proof.
  intros Hc. unfold BasePlugin.event_bus.
  by rewrite bind_assoc, bind_get, Hc, bind_ret.
Qed.

Lemma set_context_self (w : World) (c : PluginContext.t) :
  self (final (BasePlugin.set_context c w)) =
    mkPlugin (Some c) (running (self w)) (_process (self w)).
Proof. reflexivity. Qed.

(** C2: the [event_bus] property and [set_context] are those of
    [BasePlugin] for every plugin class.  While no context is set the
    property raises [EventBusNotReady] (nothing is called, nothing
    changes); right after [set_context c] it returns the bus handle of
    [c]. *)
Theorem event_bus_ready_after_set_context (w : World) (c : PluginContext.t) :
  (context (self w) = None →
     ∃ msg, result (BasePlugin.event_bus w) = inl (EventBusNotReady msg)
            ∧ emitted (BasePlugin.event_bus w) = []
            ∧ final (BasePlugin.event_bus w) = w)
  ∧ result (BasePlugin.set_context c w) = inr tt
  ∧ result (BasePlugin.event_bus (final (BasePlugin.set_context c w))) =
      inr (PluginContext.event_bus c).
Proof.
  split; [|split].
  - intros Hnone. rewrite (event_bus_unset w Hnone). eauto.
  - reflexivity.
  - reflexivity.
Qed.

(** The property fails on a new plugin and succeeds once the sample
    context is set. *)
Lemma event_bus_ready_after_set_context_witness :
  (∃ msg, result (BasePlugin.event_bus sample_world) = inl (EventBusNotReady msg)
          ∧ emitted (BasePlugin.event_bus sample_world) = []
          ∧ final (BasePlugin.event_bus sample_world) = sample_world)
  ∧ result (BasePlugin.event_bus
              (final (BasePlugin.set_context sample_context sample_world))) =
      inr sample_bus.
Proof.
  destruct (event_bus_ready_after_set_context sample_world sample_context)
    as (Hbefore & _ & Hafter).
  split; [apply Hbefore; reflexivity | exact Hafter].
Defined.

(** C7: setting context [a] and then context [b] leaves the plugin exactly
    as setting [b] alone does, and [event_bus] then returns the bus handle
    of [b]. *)
Theorem set_context_twice (w : World) (a b : PluginContext.t) :
  final (BasePlugin.set_context b (final (BasePlugin.set_context a w))) =
    final (BasePlugin.set_context b w)
  ∧ result (BasePlugin.event_bus
              (final (BasePlugin.set_context b
                        (final (BasePlugin.set_context a w))))) =
      inr (PluginContext.event_bus b).
Proof. split; reflexivity. Qed.

(** ** BasePlugin.boot *)

Section base_boot.
Variable cls : PluginClass.
Variable w : World.

Lemma base_boot_unfold :
  BasePlugin.boot cls w =
    let k := bind (BasePlugin.resolve_start cls) (λ _,
               bus ← BasePlugin.event_bus;
               emit (Broadcast bus (PluginStartedEvent (type_name cls)) None);;
               emit (started_notice cls)) (now_running w) in
    mkOut (Invoke "start" :: emitted k) (final k) (result k).
Proof.
  unfold BasePlugin.boot, BasePlugin.set_running, BasePlugin.call_start.
  rewrite bind_modify, bind_assoc, bind_emit. reflexivity.
Qed.

Lemma base_boot_start_raises e :
  result (BasePlugin.resolve_start cls (now_running w)) = inl e →
  BasePlugin.boot cls w =
    mkOut (Invoke "start" :: emitted (BasePlugin.resolve_start cls (now_running w)))
          (final (BasePlugin.resolve_start cls (now_running w))) (inl e).
Proof.
  intros He. rewrite base_boot_unfold. cbv zeta.
  rewrite (bind_inl _ _ _ e He). reflexivity.
Qed.

Lemma base_boot_not_ready :
  result (BasePlugin.resolve_start cls (now_running w)) = inr tt →
  context (self (final (BasePlugin.resolve_start cls (now_running w)))) = None →
  BasePlugin.boot cls w =
    mkOut (Invoke "start" :: emitted (BasePlugin.resolve_start cls (now_running w)))
          (final (BasePlugin.resolve_start cls (now_running w)))
          (inl (EventBusNotReady not_ready_msg)).
Proof.
  intros Hr Hc. rewrite base_boot_unfold. cbv zeta.
  rewrite (bind_inr _ _ _ tt Hr).
  rewrite (bind_inl _ _ _ _ (f_equal result (event_bus_unset _ Hc))).
  rewrite (event_bus_unset _ Hc). simpl. by rewrite app_nil_r.
Qed.

Lemma base_boot_completes c :
  result (BasePlugin.resolve_start cls (now_running w)) = inr tt →
  context (self (final (BasePlugin.resolve_start cls (now_running w)))) = Some c →
  BasePlugin.boot cls w =
    mkOut (Invoke "start" ::
             emitted (BasePlugin.resolve_start cls (now_running w)) ++
             [Broadcast (PluginContext.event_bus c)
                (PluginStartedEvent (type_name cls)) None;
              started_notice cls])
          (final (BasePlugin.resolve_start cls (now_running w))) (inr tt).
Proof.
  intros Hr Hc. rewrite base_boot_unfold. cbv zeta.
  rewrite (bind_inr _ _ _ tt Hr).
  rewrite (bind_inr _ _ _ _ (f_equal result (event_bus_set _ c Hc))).
  rewrite (event_bus_set _ c Hc). reflexivity.
Qed.
End base_boot.

Lemma boot_in_process (cls : PluginClass) :
  in_process cls = true → boot cls = BasePlugin.boot cls.
Proof. unfold in_process, boot. by destruct (base cls). Qed.

Lemma boot_isolated (cls : PluginClass) :
  in_process cls = false → boot cls = BaseIsolatedPlugin.boot cls.
Proof. unfold in_process, boot. by destruct (base cls). Qed.

Lemma resolve_start_default (cls : PluginClass) (w : World) :
  cls_start cls = None →
  BasePlugin.resolve_start cls w = mkOut [] w (inr tt).
Proof. unfold BasePlugin.resolve_start. by intros ->. Qed.

(** C9: [boot()] of an in-process plugin that has no context, with a
    [start] that returns normally and sets no context: the call raises
    [EventBusNotReady]; [start] was entered with the running flag already
    true; no event was broadcast and no notice logged; the plugin is left
    as [start] left it, so with the inherited [start] the running flag
    stays true. *)
Theorem boot_before_set_context (cls : PluginClass) (w : World) :
  in_process cls = true →
  context (self w) = None →
  result (BasePlugin.resolve_start cls (now_running w)) = inr tt →
  context (self (final (BasePlugin.resolve_start cls (now_running w)))) =
    context (self (now_running w)) →
  result (boot cls w) = inl (EventBusNotReady not_ready_msg)
  ∧ running (self (now_running w)) = true
  ∧ emitted (boot cls w) =
      Invoke "start" :: emitted (BasePlugin.resolve_start cls (now_running w))
  ∧ final (boot cls w) = final (BasePlugin.resolve_start cls (now_running w))
  ∧ (cls_start cls = None →
       final (boot cls w) = now_running w
       ∧ running (self (final (boot cls w))) = true).
Proof.
  intros Hin Hnone Hret Hkeep.
  rewrite (boot_in_process cls Hin).
  assert (context (self (final (BasePlugin.resolve_start cls (now_running w))))
          = None) as Hc by (rewrite Hkeep; exact Hnone).
  rewrite (base_boot_not_ready cls w Hret Hc). simpl.
  split; [reflexivity|]. split; [reflexivity|].
  split; [reflexivity|]. split; [reflexivity|].
  intros Hdef. by rewrite (resolve_start_default cls _ Hdef).
Qed.

(** A synchronous-stop plugin booted before any [set_context]. *)
Lemma boot_before_set_context_witness :
  result (boot SyncSample sample_world) = inl (EventBusNotReady not_ready_msg)
  ∧ emitted (boot SyncSample sample_world) = [Invoke "start"]
  ∧ running (self (final (boot SyncSample sample_world))) = true.
Proof.
  destruct (boot_before_set_context SyncSample sample_world)
    as (Hres & _ & Hem & _ & Hdef);
    [reflexivity | reflexivity | reflexivity | reflexivity |].
  split; [exact Hres | split; [exact Hem | apply Hdef; reflexivity]].
Defined.

(** ** BaseIsolatedPlugin *)

Section isolated.
Variable cls : PluginClass.
Variable w : World.

Lemma isolated_boot_run :
  BaseIsolatedPlugin.boot cls w =
    mkOut [ProcessStart (next_pid w) "_prepare_start"; started_notice cls]
      {| self := mkPlugin (context (self w)) true (Some (spawned w));
         alive := {[next_pid w]} ∪ alive w;
         next_pid := Datatypes.S (next_pid w);
         heeds := heeds w |}
      (inr tt).
Proof. reflexivity. Qed.

Lemma prepare_start_run c kwargs q :
  context (self w) = Some c →
  PluginContext.boot_kwargs c = Some kwargs →
  kwargs !! "log_queue" = Some q →
  BaseIsolatedPlugin._prepare_start cls w =
    let o := BasePlugin.resolve_start cls w in
    mkOut ([SetupQueueLogging q (default (PyInt logging_INFO) (kwargs !! "log_level"));
            ConnectNoWait (PluginContext.event_bus c);
            Broadcast (PluginContext.event_bus c)
              (PluginStartedEvent (type_name cls)) None;
            Invoke "start"] ++ emitted o)
          (final o) (result o).
Proof.
  intros Hc Hk Hq.
  unfold BaseIsolatedPlugin._prepare_start, self_context_boot_kwargs.
  rewrite bind_assoc, bind_get, Hc, bind_ret, Hk. simpl subscript.
  rewrite Hq, bind_ret.
  rewrite bind_assoc, bind_get, Hc, bind_ret, Hk. simpl dict_get.
  rewrite bind_ret, bind_emit.
  rewrite (bind_event_bus_set _ _ c Hc), bind_emit.
  rewrite (bind_event_bus_set _ _ c Hc), bind_emit.
  unfold BasePlugin.call_start. rewrite bind_emit.
  reflexivity.
Qed.
End isolated.

Lemma isolated_boot_context (cls : PluginClass) (w : World) :
  context (self (final (BaseIsolatedPlugin.boot cls w))) = context (self w).
Proof. reflexivity. Qed.

(** C8: the entry point of the spawned process needs the key
    ['log_queue'] in the boot parameters: without it the call raises
    [KeyError] before it does anything.  The key ['log_level'] is optional:
    logging is set up at its value when it is there and at [logging.INFO]
    (20) when it is not. *)
Theorem prepare_start_boot_kwargs (cls : PluginClass) (w : World)
    (c : PluginContext.t) (kwargs : gmap string PyVal) :
  context (self w) = Some c →
  PluginContext.boot_kwargs c = Some kwargs →
  (kwargs !! "log_queue" = None →
     BaseIsolatedPlugin._prepare_start cls w =
       mkOut [] w (inl (KeyError "log_queue")))
  ∧ (∀ q, kwargs !! "log_queue" = Some q →
       head (emitted (BaseIsolatedPlugin._prepare_start cls w)) =
         Some (SetupQueueLogging q
                 match kwargs !! "log_level" with
                 | Some level => level
                 | None => PyInt 20
                 end)).
Proof.
  intros Hc Hk. split.
  - intros Hq.
    unfold BaseIsolatedPlugin._prepare_start, self_context_boot_kwargs.
    rewrite bind_assoc, bind_get, Hc, bind_ret, Hk. simpl subscript.
    by rewrite Hq, bind_raise.
  - intros q Hq. rewrite (prepare_start_run cls w c kwargs q Hc Hk Hq).
    simpl. by destruct (kwargs !! "log_level").
Qed.

(** The sample context has a log queue and no log level; a context with
    empty boot parameters has neither. *)
Lemma prepare_start_boot_kwargs_witness :
  head (emitted (BaseIsolatedPlugin._prepare_start IsolatedSample ready_world)) =
    Some (SetupQueueLogging (PyObj 5) (PyInt 20)).
Proof.
  destruct (prepare_start_boot_kwargs IsolatedSample ready_world
              sample_context sample_kwargs eq_refl eq_refl) as [_ Hsome].
  apply (Hsome (PyObj 5)). reflexivity.
Defined.

(** C6: [boot()] of an isolated plugin always returns; all it does is set
    the running flag, start one new process whose target is
    [_prepare_start], keep the process object, and log the notice: it
    waits for nothing.  The entry point, given a context whose boot
    parameters hold the log queue, sets up queue logging with the queue and
    the level, connects the bus without waiting, broadcasts
    [PluginStartedEvent], and calls [start()], in this order. *)
Theorem isolated_boot_spawns (cls : PluginClass) (w : World) :
  in_process cls = false →
  result (boot cls w) = inr tt
  ∧ emitted (boot cls w) =
      [ProcessStart (next_pid w) "_prepare_start"; started_notice cls]
  ∧ _process (self (final (boot cls w))) = Some (spawned w)
  ∧ next_pid w ∈ alive (final (boot cls w))
  ∧ ∀ c kwargs q,
      context (self w) = Some c →
      PluginContext.boot_kwargs c = Some kwargs →
      kwargs !! "log_queue" = Some q →
      let child := BaseIsolatedPlugin._prepare_start cls (final (boot cls w)) in
      let started := BasePlugin.resolve_start cls (final (boot cls w)) in
      emitted child =
        ([SetupQueueLogging q
            (default (PyInt logging_INFO) (kwargs !! "log_level"));
          ConnectNoWait (PluginContext.event_bus c);
          Broadcast (PluginContext.event_bus c)
            (PluginStartedEvent (type_name cls)) None;
          Invoke "start"] ++ emitted started)%list
      ∧ result child = result started.
Proof.
  intros Hiso. rewrite (boot_isolated cls Hiso).
  split; [done|]. split; [done|]. split; [done|].
  split; [rewrite isolated_boot_run; simpl; set_solver|].
  intros c kwargs q Hc Hk Hq.
  rewrite <- (isolated_boot_context cls w) in Hc.
  by rewrite (prepare_start_run cls _ c kwargs q Hc Hk Hq).
Qed.

(** Booting the sample isolated plugin starts process 100; its entry point
    then makes the four calls in order. *)
Lemma isolated_boot_spawns_witness :
  emitted (boot IsolatedSample ready_world) =
    [ProcessStart 100 "_prepare_start"; started_notice IsolatedSample]
  ∧ emitted (BaseIsolatedPlugin._prepare_start IsolatedSample
               (final (boot IsolatedSample ready_world))) =
      [SetupQueueLogging (PyObj 5) (PyInt 20); ConnectNoWait sample_bus;
       Broadcast sample_bus (PluginStartedEvent "IsolatedSample") None;
       Invoke "start"].
Proof.
  destruct (isolated_boot_spawns IsolatedSample ready_world eq_refl)
    as (_ & Hem & _ & _ & Hchild).
  split; [exact Hem|].
  apply (Hchild sample_context sample_kwargs (PyObj 5) eq_refl eq_refl eq_refl).
Defined.

(** ** PluginStartedEvent and the invocation of start *)

Lemma count_started_app (ty : string) (tr1 tr2 : list Action) :
  count_started ty (tr1 ++ tr2) = count_started ty tr1 + count_started ty tr2.
Proof. induction tr1 as [|a tr1 IH]; simpl; [done|]. rewrite IH. lia. Qed.

Lemma started_after_start_seen (ty : string) (tr : list Action) :
  started_after_start ty true tr = true.
Proof.
  induction tr as [|a tr IH]; simpl; [done|].
  destruct a as [bus ev config| | | | | | | | | |]; simpl; rewrite ?IH; try done.
  destruct ev; [done|]. by destruct (bool_decide _).
Qed.

(** C1 (amended): an in-process plugin whose [boot()] completes has
    broadcast one [PluginStartedEvent] of its own, carrying its class, on
    its context's bus, after [start()] was invoked and had returned: the
    trace is the invocation of [start], what [start] did, the broadcast,
    the notice.  [boot()] of an isolated plugin broadcasts nothing itself;
    the entry point of its process, given a context whose boot parameters
    hold the log queue, broadcasts the one event BEFORE it invokes
    [start()]. *)
Theorem started_event_and_start (cls : PluginClass) (w : World) :
  (in_process cls = true → result (boot cls w) = inr tt →
     let started := BasePlugin.resolve_start cls (now_running w) in
     ∃ c, context (self (final started)) = Some c
       ∧ emitted (boot cls w) =
           (Invoke "start" :: emitted started ++
              [Broadcast (PluginContext.event_bus c)
                 (PluginStartedEvent (type_name cls)) None;
               started_notice cls])%list
       ∧ count_started (type_name cls) (emitted (boot cls w)) =
           count_started (type_name cls) (emitted started) + 1
       ∧ started_after_start (type_name cls) false (boot_trace cls w) = true)
  ∧ (in_process cls = false →
     count_started (type_name cls) (emitted (boot cls w)) = 0
     ∧ ∀ c kwargs q,
         context (self w) = Some c →
         PluginContext.boot_kwargs c = Some kwargs →
         kwargs !! "log_queue" = Some q →
         let child := BaseIsolatedPlugin._prepare_start cls (final (boot cls w)) in
         let started := BasePlugin.resolve_start cls (final (boot cls w)) in
         emitted child =
           ([SetupQueueLogging q
               (default (PyInt logging_INFO) (kwargs !! "log_level"));
             ConnectNoWait (PluginContext.event_bus c);
             Broadcast (PluginContext.event_bus c)
               (PluginStartedEvent (type_name cls)) None;
             Invoke "start"] ++ emitted started)%list
         ∧ count_started (type_name cls) (emitted child) =
             1 + count_started (type_name cls) (emitted started)
         ∧ started_after_start (type_name cls) false (boot_trace cls w) = false).
Proof.
  split.
  - intros Hin Hdone started. unfold boot_trace. rewrite Hin, app_nil_r.
    rewrite (boot_in_process cls Hin) in *.
    subst started.
    destruct (result (BasePlugin.resolve_start cls (now_running w)))
      as [e|[]] eqn:Hr.
    { rewrite (base_boot_start_raises cls w e Hr) in Hdone. done. }
    destruct (context (self (final (BasePlugin.resolve_start cls (now_running w)))))
      as [c|] eqn:Hc.
    2:{ rewrite (base_boot_not_ready cls w Hr Hc) in Hdone. done. }
    exists c. rewrite (base_boot_completes cls w c Hr Hc).
    split; [done|]. split; [done|]. split.
    + cbn [emitted count_started is_started]. rewrite count_started_app.
      cbn [count_started is_started].
      rewrite bool_decide_eq_true_2 by done.
      unfold started_notice. cbn [is_started]. lia.
    + cbn [emitted started_after_start]. rewrite bool_decide_eq_true_2 by done.
      apply started_after_start_seen.
  - intros Hiso. unfold boot_trace. rewrite Hiso.
    rewrite (boot_isolated cls Hiso). split; [done|].
    intros c kwargs q Hc Hk Hq. cbv zeta.
    rewrite <- (isolated_boot_context cls w) in Hc.
    rewrite (prepare_start_run cls _ c kwargs q Hc Hk Hq). simpl.
    split; [done|]. split.
    + by rewrite bool_decide_eq_true_2.
    + by rewrite bool_decide_eq_true_2.
Qed.

(** The sample in-process plugin broadcasts once; the process of the sample
    isolated plugin broadcasts once, too. *)
Lemma started_event_and_start_witness :
  count_started "SyncSample" (emitted (boot SyncSample ready_world)) = 1
  ∧ count_started "IsolatedSample"
      (emitted (BaseIsolatedPlugin._prepare_start IsolatedSample
                  (final (boot IsolatedSample ready_world)))) = 1.
Proof.
  split.
  - destruct (started_event_and_start SyncSample ready_world) as [Hin _].
    destruct (Hin eq_refl eq_refl) as (c & _ & _ & Hcount & _).
    exact Hcount.
  - destruct (started_event_and_start IsolatedSample ready_world) as [_ Hiso].
    destruct (Hiso eq_refl) as [_ Hchild].
    destruct (Hchild sample_context sample_kwargs (PyObj 5)
                eq_refl eq_refl eq_refl) as (_ & Hcount & _).
    exact Hcount.
Defined.

(** C1 as stated fails for isolated plugins: the sample isolated plugin
    boots, and the event is on the bus before [start()] is invoked; booted
    without a context, it boots all the same and its process broadcasts
    nothing. *)
Lemma started_event_before_start_counterexample :
  (result (boot IsolatedSample ready_world) = inr tt
   ∧ boot_trace IsolatedSample ready_world =
       [ProcessStart 100 "_prepare_start"; started_notice IsolatedSample;
        SetupQueueLogging (PyObj 5) (PyInt 20); ConnectNoWait sample_bus;
        Broadcast sample_bus (PluginStartedEvent "IsolatedSample") None;
        Invoke "start"]
   ∧ started_after_start "IsolatedSample" false
       (boot_trace IsolatedSample ready_world) = false)
  ∧ (result (boot IsolatedSample sample_world) = inr tt
     ∧ count_started "IsolatedSample"
         (boot_trace IsolatedSample sample_world) = 0).
Proof. repeat split; reflexivity. Qed.

(** ** stop *)

Lemma kill_process_gracefully_run (p : Process) (logger : string) (w : World) :
  let o := kill_process_gracefully (Some p) logger w in
  emitted o =
    SendSignal (pid p) Interrupt :: WaitGrace (pid p) ::
    (if heeds w (pid p) Interrupt || bool_decide (pid p ∉ alive w) then []
     else [SendSignal (pid p) ForcedTermination;
           LogError logger
             "process did not exit gracefully, termination was forced"])
  ∧ result o = inr tt
  ∧ self (final o) = self w
  ∧ pid p ∉ alive (final o).
Proof.
  cbv zeta. unfold kill_process_gracefully, send_signal, has_exited.
  rewrite !bind_assoc, !bind_emit, !bind_modify, bind_emit, bind_assoc, bind_get,
    bind_ret.
  cbn [cannot_be_ignored orb].
  assert (∀ X : gset nat, pid p ∉ X ∖ {[pid p]}) as Hout.
  { intros X. apply not_elem_of_difference. right. by apply elem_of_singleton. }
  destruct (heeds w (pid p) Interrupt) eqn:Hint; cbn [alive orb].
  - rewrite bool_decide_eq_true_2 by apply Hout.
    repeat split; try done. apply Hout.
  - case_bool_decide as Hgone; [done|].
    rewrite !bind_assoc, bind_emit, bind_modify.
    repeat split; try done. apply Hout.
Qed.

Lemma isolated_stop_run (cls : PluginClass) (w : World)
    (c : PluginContext.t) :
  context (self w) = Some c →
  BaseIsolatedPlugin.stop cls w =
    prepend (BusStop (PluginContext.event_bus c))
      (kill_process_gracefully (_process (self w)) (BasePlugin.logger cls) w).
Proof.
  intros Hc. unfold BaseIsolatedPlugin.stop.
  by rewrite bind_get, Hc, bind_emit, bind_get.
Qed.

(** C3: [stop()] of an isolated plugin that has its context and its
    process first stops the bus connection of its context, then terminates
    the process gracefully: an interrupt signal and a grace period; when
    the process has not exited by then, a forced termination signal, and
    the failure to exit gracefully is reported on the plugin's logger.  In
    every case [stop()] returns normally, and the process has exited. *)
Theorem isolated_stop_sequence (cls : PluginClass) (w : World)
    (c : PluginContext.t) (p : Process) :
  base cls = BaseIsolatedPlugin →
  cls_stop cls = None →
  context (self w) = Some c →
  _process (self w) = Some p →
  result (stop cls w) = inr tt
  ∧ emitted (stop cls w) =
      BusStop (PluginContext.event_bus c) ::
      SendSignal (pid p) Interrupt :: WaitGrace (pid p) ::
      (if heeds w (pid p) Interrupt || bool_decide (pid p ∉ alive w) then []
       else [SendSignal (pid p) ForcedTermination;
             LogError (BasePlugin.logger cls)
               "process did not exit gracefully, termination was forced"])
  ∧ pid p ∉ alive (final (stop cls w)).
Proof.
  intros Hbase Hstop Hc Hp. unfold stop. rewrite Hstop, Hbase.
  rewrite (isolated_stop_run cls w c Hc), Hp.
  destruct (kill_process_gracefully_run p (BasePlugin.logger cls) w)
    as (Hem & Hres & _ & Hgone).
  unfold prepend. cbn [result emitted final]. by rewrite Hem, Hres.
Qed.

(** The process of the sample plugin does not heed the interrupt:
    [stop()] forces its termination, logs the failure, and returns. *)
Lemma isolated_stop_sequence_witness :
  result (stop IsolatedSample (final (boot IsolatedSample ready_world))) = inr tt
  ∧ emitted (stop IsolatedSample (final (boot IsolatedSample ready_world))) =
      [BusStop sample_bus; SendSignal 100 Interrupt; WaitGrace 100;
       SendSignal 100 ForcedTermination;
       LogError (BasePlugin.logger IsolatedSample)
         "process did not exit gracefully, termination was forced"]
  ∧ 100 ∉ alive (final (stop IsolatedSample
                          (final (boot IsolatedSample ready_world)))).
Proof.
  exact (isolated_stop_sequence IsolatedSample
           (final (boot IsolatedSample ready_world)) sample_context
           (spawned ready_world) eq_refl eq_refl eq_refl eq_refl).
Defined.

(** ** The running flag *)

Lemma stop_keeps_self (cls : PluginClass) (w : World) :
  cls_stop cls = None → self (final (stop cls w)) = self w.
Proof.
  intros Hstop. unfold stop. rewrite Hstop.
  destruct (base cls); try reflexivity.
  destruct (context (self w)) as [c|] eqn:Hc.
  - rewrite (isolated_stop_run cls w c Hc). unfold prepend. cbn [final].
    destruct (_process (self w)) as [p|]; [|reflexivity].
    by destruct (kill_process_gracefully_run p (BasePlugin.logger cls) w)
      as (_ & _ & Hself & _).
  - unfold BaseIsolatedPlugin.stop. by rewrite bind_get, Hc.
Qed.

Lemma base_boot_final (cls : PluginClass) (w : World) :
  final (BasePlugin.boot cls w) =
    final (BasePlugin.resolve_start cls (now_running w)).
Proof.
  destruct (result (BasePlugin.resolve_start cls (now_running w)))
    as [e|[]] eqn:Hr.
  - by rewrite (base_boot_start_raises cls w e Hr).
  - destruct (context (self (final (BasePlugin.resolve_start cls (now_running w)))))
      as [c|] eqn:Hc.
    + by rewrite (base_boot_completes cls w c Hr Hc).
    + by rewrite (base_boot_not_ready cls w Hr Hc).
Qed.

Lemma boot_running (cls : PluginClass) (w : World) :
  running (self (final (boot cls w))) =
    if in_process cls
    then running (self (final (BasePlugin.resolve_start cls (now_running w))))
    else true.
Proof.
  destruct (in_process cls) eqn:Hin.
  - by rewrite (boot_in_process cls Hin), base_boot_final.
  - by rewrite (boot_isolated cls Hin).
Qed.

(** C4 (amended): every [boot()] sets the running flag first and writes it
    nowhere else.  After [boot()] of an isolated plugin the flag is true;
    after [boot()] of an in-process plugin, completed or failed, the flag
    is what [start()], entered with the flag true, left: true for every
    [start()] that leaves it set, so for the inherited [start] and for
    [DebugPlugin.start].  No [stop()] of this module touches the flag or
    any other attribute of the plugin: after the inherited [stop()], and
    after [DebugPlugin.stop], the plugin is as it was, so a booted plugin
    still has the flag set. *)
Theorem running_flag_lifecycle (cls : PluginClass) (w : World) :
  running (self (now_running w)) = true
  ∧ running (self (final (boot cls w))) =
      (if in_process cls
       then running (self (final (BasePlugin.resolve_start cls (now_running w))))
       else true)
  ∧ (running (self (final (BasePlugin.resolve_start cls (now_running w)))) = true →
       running (self (final (boot cls w))) = true)
  ∧ (in_process cls = false ∨ cls_start cls = None →
       running (self (final (boot cls w))) = true)
  ∧ running (self (final (boot DebugPlugin.class w))) = true
  ∧ (cls_stop cls = None → self (final (stop cls w)) = self w)
  ∧ self (final (DebugPlugin.stop w)) = self w
  ∧ (cls_stop cls = None →
       running (self (final (stop cls (final (boot cls w))))) =
         running (self (final (boot cls w))))
  ∧ (cls_start cls = None → cls_stop cls = None →
       running (self (final (stop cls (final (boot cls w))))) = true)
  ∧ running (self (final (stop DebugPlugin.class
                            (final (boot DebugPlugin.class w))))) = true.
Proof.
  assert (in_process cls = false ∨ cls_start cls = None →
          running (self (final (boot cls w))) = true) as Hboot.
  { rewrite boot_running. intros [->|Hdef]; [done|].
    rewrite (resolve_start_default cls _ Hdef). by destruct (in_process cls). }
  assert (running (self (final (boot DebugPlugin.class w))) = true) as Hdebug.
  { by rewrite boot_running. }
  split; [reflexivity|]. split; [apply boot_running|]. split.
  { intros Hkeep. rewrite boot_running, Hkeep. by destruct (in_process cls). }
  split; [exact Hboot|]. split; [exact Hdebug|].
  split; [apply stop_keeps_self|]. split; [reflexivity|]. split.
  { intros Hstop. by rewrite (stop_keeps_self cls _ Hstop). }
  split.
  { intros Hdef Hstop. rewrite (stop_keeps_self cls _ Hstop). apply Hboot. by right. }
  exact Hdebug.
Qed.

(** The sample synchronous-stop plugin, booted and stopped. *)
Lemma running_flag_lifecycle_witness :
  running (self (final (boot SyncSample ready_world))) = true
  ∧ running (self (final (stop SyncSample
                            (final (boot SyncSample ready_world))))) = true.
Proof.
  destruct (running_flag_lifecycle SyncSample ready_world)
    as (_ & _ & Hkeep & _ & _ & _ & _ & _ & Hstop & _).
  split; [apply Hkeep; reflexivity | apply Hstop; reflexivity].
Defined.

(** C4 as stated fails: the sample plugins boot, stop without error, and
    still have the running flag set. *)
Lemma still_running_after_stop_counterexample :
  (result (boot SyncSample ready_world) = inr tt
   ∧ result (stop SyncSample (final (boot SyncSample ready_world))) = inr tt
   ∧ running (self (final (stop SyncSample
                             (final (boot SyncSample ready_world))))) = true)
  ∧ (result (boot IsolatedSample ready_world) = inr tt
     ∧ result (stop IsolatedSample (final (boot IsolatedSample ready_world))) =
         inr tt
     ∧ running (self (final (stop IsolatedSample
                               (final (boot IsolatedSample ready_world))))) =
         true).
Proof. repeat split; reflexivity. Qed.

(** ** DebugPlugin *)

Example debug_plugin_logger :
  DebugPlugin.logger = BasePlugin.logger DebugPlugin.class.
Proof. reflexivity. Qed.

(** The demonstration plugin runs in the host: its [start] logs and
    schedules the counter, then the event and the notice follow. *)
Example debug_plugin_boot :
  boot DebugPlugin.class ready_world =
    mkOut [Invoke "start";
           LogInfo DebugPlugin.logger "Debug plugin: start called";
           EnsureFuture "count_forever";
           Broadcast sample_bus (PluginStartedEvent "DebugPlugin") None;
           started_notice DebugPlugin.class]
          (now_running ready_world) (inr tt).
Proof. reflexivity. Qed.

Example debug_plugin_stop :
  stop DebugPlugin.class (now_running ready_world) =
    mkOut [LogInfo DebugPlugin.logger "Debug plugin: stop called"]
          (now_running ready_world) (inr tt).
Proof. reflexivity. Qed.

(** A plugin that got the other context after the sample one answers with
    the other bus. *)
Example rebound_plugin_bus :
  result (BasePlugin.event_bus
            (final (BasePlugin.set_context other_context ready_world))) =
    inr other_bus.
Proof. reflexivity. Qed.

(** [BaseMainProcessPlugin] has no [stop]. *)
Example main_process_plugin_stop (w : World) :
  ∃ msg,
    stop (Build_PluginClass BaseMainProcessPlugin "Main" "main" None None) w =
      mkOut [] w (inl (AttributeError msg)).
Proof. eexists. reflexivity. Qed.


(** * Further properties of the module *)

(** ** Loggers *)

Lemma string_app_inv_head (p a b : string) : p ++ a = p ++ b → a = b.
Proof.
  induction p as [|ch p IH]; simpl; intros Heq; [done|].
  injection Heq. exact IH.
Qed.

(** X1: plugins with different names log on different loggers: the
    logger's name determines the plugin's [name]. *)
Theorem logger_determines_name (cls1 cls2 : PluginClass) :
  BasePlugin.logger cls1 = BasePlugin.logger cls2 ↔ name cls1 = name cls2.
Proof.
  unfold BasePlugin.logger. split.
  - apply string_app_inv_head.
  - by intros ->.
Qed.

(** ** boot() called again *)

Lemma now_running_again (b : bool) (w : World) :
  now_running (final (BasePlugin.set_running b w)) = now_running w.
Proof. reflexivity. Qed.

Lemma base_boot_now_running (cls : PluginClass) (b : bool) (w : World) :
  BasePlugin.boot cls (final (BasePlugin.set_running b w)) =
    BasePlugin.boot cls w.
Proof. by rewrite !base_boot_unfold, now_running_again. Qed.

(** X2: no [boot()] looks at the running flag: whatever the flag is when
    [boot()] is called, the call does the same (it invokes [start] again,
    broadcasts again, spawns again) and ends in the same state. *)
Theorem boot_ignores_running_flag (cls : PluginClass) (b : bool) (w : World) :
  boot cls (final (BasePlugin.set_running b w)) = boot cls w.
Proof.
  unfold boot. destruct (base cls);
    solve [apply base_boot_now_running | reflexivity].
Qed.

Lemma base_boot_inherited (cls : PluginClass) (w : World)
    (c : PluginContext.t) :
  cls_start cls = None →
  context (self w) = Some c →
  BasePlugin.boot cls w =
    mkOut [Invoke "start";
           Broadcast (PluginContext.event_bus c)
             (PluginStartedEvent (type_name cls)) None;
           started_notice cls]
          (now_running w) (inr tt).
Proof.
  intros Hdef Hc.
  pose proof (resolve_start_default cls (now_running w) Hdef) as Hstart.
  rewrite (base_boot_completes cls w c); by rewrite Hstart.
Qed.

(** X3: an in-process plugin with the inherited [start], booted twice:
    both calls complete, [start] is invoked twice and two
    [PluginStartedEvent]s are broadcast; the plugin ends as after one
    [boot()]. *)
Theorem in_process_boot_twice (cls : PluginClass) (w : World)
    (c : PluginContext.t) :
  in_process cls = true →
  cls_start cls = None →
  context (self w) = Some c →
  (boot cls;; boot cls) w =
    mkOut [Invoke "start";
           Broadcast (PluginContext.event_bus c)
             (PluginStartedEvent (type_name cls)) None;
           started_notice cls;
           Invoke "start";
           Broadcast (PluginContext.event_bus c)
             (PluginStartedEvent (type_name cls)) None;
           started_notice cls]
          (now_running w) (inr tt).
Proof.
  intros Hin Hdef Hc. rewrite (boot_in_process cls Hin).
  pose proof (base_boot_inherited cls w c Hdef Hc) as Hfirst.
  rewrite (bind_inr _ _ _ tt (f_equal result Hfirst)), Hfirst.
  cbn [final emitted].
  assert (BasePlugin.boot cls (now_running w) = BasePlugin.boot cls w) as ->
    by apply (base_boot_now_running cls true w).
  by rewrite Hfirst.
Qed.

Lemma in_process_boot_twice_witness :
  count_started "SyncSample"
    (emitted ((boot SyncSample;; boot SyncSample) ready_world)) = 2.
Proof.
  rewrite (in_process_boot_twice SyncSample ready_world sample_context
             eq_refl eq_refl eq_refl).
  reflexivity.
Defined.

(** X4: an isolated plugin booted twice starts two processes, from two
    different process objects; the plugin keeps the second process object
    only: the one it held after the first [boot()] is overwritten. *)
Theorem isolated_boot_twice (cls : PluginClass) (w : World) :
  in_process cls = false →
  let o := (boot cls;; boot cls) w in
  result o = inr tt
  ∧ emitted o =
      [ProcessStart (next_pid w) "_prepare_start"; started_notice cls;
       ProcessStart (Datatypes.S (next_pid w)) "_prepare_start";
       started_notice cls]
  ∧ _process (self (final (boot cls w))) =
      Some {| pid := next_pid w; target := "_prepare_start" |}
  ∧ _process (self (final o)) =
      Some {| pid := Datatypes.S (next_pid w); target := "_prepare_start" |}
  ∧ _process (self (final o)) ≠ _process (self (final (boot cls w))).
Proof.
  intros Hiso. cbv zeta. rewrite (boot_isolated cls Hiso).
  split; [done|]. split; [done|]. split; [done|]. split; [done|].
  cbn. intros Heq. injection Heq. lia.
Qed.

Lemma isolated_boot_twice_witness :
  emitted ((boot IsolatedSample;; boot IsolatedSample) sample_world) =
    [ProcessStart 100 "_prepare_start"; started_notice IsolatedSample;
     ProcessStart 101 "_prepare_start"; started_notice IsolatedSample].
Proof.
  destruct (isolated_boot_twice IsolatedSample sample_world eq_refl)
    as (_ & Hem & _).
  exact Hem.
Defined.

(** ** boot() when start() fails *)

(** X5: when [start()] of an in-process plugin raises, [boot()] raises the
    same exception: no [PluginStartedEvent] of its own is broadcast and no
    notice is logged, and the plugin stays as [start] left it; [start] had
    been entered with the running flag already true. *)
Theorem boot_start_raises (cls : PluginClass) (w : World) (e : Exn) :
  in_process cls = true →
  result (BasePlugin.resolve_start cls (now_running w)) = inl e →
  result (boot cls w) = inl e
  ∧ emitted (boot cls w) =
      Invoke "start" :: emitted (BasePlugin.resolve_start cls (now_running w))
  ∧ count_started (type_name cls) (emitted (boot cls w)) =
      count_started (type_name cls)
        (emitted (BasePlugin.resolve_start cls (now_running w)))
  ∧ final (boot cls w) = final (BasePlugin.resolve_start cls (now_running w))
  ∧ running (self (now_running w)) = true.
Proof.
  intros Hin He. rewrite (boot_in_process cls Hin).
  by rewrite (base_boot_start_raises cls w e He).
Qed.

(** The failing sample is left marked as running, and nothing was
    broadcast. *)
Lemma boot_start_raises_witness :
  result (boot FailingSample ready_world) = inl (Exception "start failed")
  ∧ emitted (boot FailingSample ready_world) = [Invoke "start"]
  ∧ running (self (final (boot FailingSample ready_world))) = true.
Proof.
  destruct (boot_start_raises FailingSample ready_world
              (Exception "start failed") eq_refl eq_refl)
    as (Hres & Hem & _ & Hfin & _).
  split; [exact Hres|]. split; [exact Hem|]. by rewrite Hfin.
Defined.

(** ** A context whose boot parameters were never set *)

(** X6: with a context fresh from [PluginContext(endpoint)], an in-process
    plugin (inherited [start]) boots and broadcasts on that endpoint,
    while the entry point of an isolated plugin raises [TypeError] at the
    first line, before logging is set up, the bus is connected or anything
    is broadcast. *)
Theorem boot_with_fresh_context (cls : PluginClass) (w : World)
    (endpoint : Endpoint) :
  context (self w) = Some (PluginContext.__init__ endpoint) →
  (in_process cls = true → cls_start cls = None →
     boot cls w =
       mkOut [Invoke "start";
              Broadcast endpoint (PluginStartedEvent (type_name cls)) None;
              started_notice cls]
             (now_running w) (inr tt))
  ∧ BaseIsolatedPlugin._prepare_start cls w =
      mkOut [] w (inl (TypeError "'NoneType' object is not subscriptable")).
Proof.
  intros Hc. split.
  - intros Hin Hdef. rewrite (boot_in_process cls Hin).
    by rewrite (base_boot_inherited cls w _ Hdef Hc).
  - unfold BaseIsolatedPlugin._prepare_start, self_context_boot_kwargs.
    by rewrite bind_assoc, bind_get, Hc, bind_ret.
Qed.

Lemma boot_with_fresh_context_witness :
  result (boot SyncSample fresh_context_world) = inr tt
  ∧ result (BaseIsolatedPlugin._prepare_start IsolatedSample
              fresh_context_world) =
      inl (TypeError "'NoneType' object is not subscriptable").
Proof.
  destruct (boot_with_fresh_context SyncSample fresh_context_world
              sample_bus eq_refl) as [Hboot _].
  destruct (boot_with_fresh_context IsolatedSample fresh_context_world
              sample_bus eq_refl) as [_ Hchild].
  split; [by rewrite Hboot | by rewrite Hchild].
Defined.

(** ** An isolated plugin without context *)

(** X7: the entry point of an isolated plugin reads [self.context]
    directly: without a context it raises [AttributeError], not the
    [EventBusNotReady] of the [event_bus] property, and does nothing at
    all, although [boot()] of the host completed. *)
Theorem prepare_start_without_context (cls : PluginClass) (w : World) :
  in_process cls = false →
  context (self w) = None →
  result (boot cls w) = inr tt
  ∧ ∃ msg,
      BaseIsolatedPlugin._prepare_start cls (final (boot cls w)) =
        mkOut [] (final (boot cls w)) (inl (AttributeError msg)).
Proof.
  intros Hiso Hc. rewrite (boot_isolated cls Hiso). split; [done|].
  rewrite <- (isolated_boot_context cls w) in Hc.
  unfold BaseIsolatedPlugin._prepare_start, self_context_boot_kwargs.
  rewrite bind_assoc, bind_get, Hc, bind_raise. eauto.
Qed.

Lemma prepare_start_without_context_witness :
  ∃ msg,
    result (BaseIsolatedPlugin._prepare_start IsolatedSample
              (final (boot IsolatedSample sample_world))) =
      inl (AttributeError msg).
Proof.
  destruct (prepare_start_without_context IsolatedSample sample_world
              eq_refl eq_refl) as [_ [msg Hrun]].
  exists msg. by rewrite Hrun.
Defined.

(** X8: [stop()] of an isolated plugin reads [self.context] directly, too:
    without a context it raises [AttributeError] and nothing is stopped or
    signalled; with a context its first call is the stop of the context's
    bus, whatever the process object is, so also on a plugin that was
    never booted. *)
Theorem isolated_stop_edges (cls : PluginClass) (w : World) :
  base cls = BaseIsolatedPlugin →
  cls_stop cls = None →
  (context (self w) = None →
     ∃ msg, stop cls w = mkOut [] w (inl (AttributeError msg)))
  ∧ (∀ c, context (self w) = Some c →
       head (emitted (stop cls w)) = Some (BusStop (PluginContext.event_bus c))).
Proof.
  intros Hbase Hstop. unfold stop. rewrite Hstop, Hbase. split.
  - intros Hc. unfold BaseIsolatedPlugin.stop. rewrite bind_get, Hc. eauto.
  - intros c Hc. by rewrite (isolated_stop_run cls w c Hc).
Qed.

Lemma isolated_stop_edges_witness :
  (∃ msg, stop IsolatedSample sample_world =
            mkOut [] sample_world (inl (AttributeError msg)))
  ∧ head (emitted (stop IsolatedSample ready_world)) = Some (BusStop sample_bus).
Proof.
  destruct (isolated_stop_edges IsolatedSample sample_world eq_refl eq_refl)
    as [Hnone _].
  destruct (isolated_stop_edges IsolatedSample ready_world eq_refl eq_refl)
    as [_ Hsome].
  split; [apply Hnone; reflexivity | exact (Hsome sample_context eq_refl)].
Defined.

(** ** DebugPlugin *)

(** X9: [boot()] of the [DebugPlugin] logs, schedules [count_forever] once
    and then broadcasts its [PluginStartedEvent]; without a context the
    counter has been scheduled all the same when [EventBusNotReady] is
    raised.  Its [stop()] only logs: it does not cancel the counter and
    leaves the plugin as it is. *)
Theorem debug_plugin_lifecycle (w : World) :
  (∀ c, context (self w) = Some c →
     boot DebugPlugin.class w =
       mkOut [Invoke "start";
              LogInfo DebugPlugin.logger "Debug plugin: start called";
              EnsureFuture "count_forever";
              Broadcast (PluginContext.event_bus c)
                (PluginStartedEvent "DebugPlugin") None;
              started_notice DebugPlugin.class]
             (now_running w) (inr tt))
  ∧ (context (self w) = None →
     boot DebugPlugin.class w =
       mkOut [Invoke "start";
              LogInfo DebugPlugin.logger "Debug plugin: start called";
              EnsureFuture "count_forever"]
             (now_running w) (inl (EventBusNotReady not_ready_msg)))
  ∧ stop DebugPlugin.class w =
      mkOut [LogInfo DebugPlugin.logger "Debug plugin: stop called"] w (inr tt).
Proof.
  split; [|split].
  - intros c Hc. change (boot DebugPlugin.class) with (BasePlugin.boot DebugPlugin.class).
    by rewrite (base_boot_completes DebugPlugin.class w c eq_refl Hc).
  - intros Hc. change (boot DebugPlugin.class) with (BasePlugin.boot DebugPlugin.class).
    by rewrite (base_boot_not_ready DebugPlugin.class w eq_refl Hc).
  - reflexivity.
Qed.

Lemma debug_plugin_lifecycle_witness :
  result (boot DebugPlugin.class sample_world) =
    inl (EventBusNotReady not_ready_msg)
  ∧ result (boot DebugPlugin.class ready_world) = inr tt.
Proof.
  destruct (debug_plugin_lifecycle sample_world) as (_ & Hnone & _).
  destruct (debug_plugin_lifecycle ready_world) as (Hsome & _ & _).
  split.
  - by rewrite (Hnone eq_refl).
  - by rewrite (Hsome sample_context eq_refl).
Defined.

Lemma count_forever_loop_length (fuel : nat) (i : Z) :
  length (count_forever_loop fuel i) = 2 * fuel.
Proof.
  revert i. induction fuel as [|fuel IH]; intros i; simpl; [done|].
  rewrite IH. lia.
Qed.

Lemma count_forever_loop_lookup (fuel : nat) (i : Z) (k : nat) :
  k < fuel →
  count_forever_loop fuel i !! (2 * k) =
    Some (LogCount DebugPlugin.logger (i + Z.of_nat k))
  ∧ count_forever_loop fuel i !! (2 * k + 1) = Some (Sleep 1).
Proof.
  revert i k. induction fuel as [|fuel IH]; intros i k Hk; [lia|].
  destruct k as [|k].
  - simpl. by rewrite Z.add_0_r.
  - destruct (IH (i + 1)%Z k ltac:(lia)) as [Hlog Hsleep].
    replace (2 * Datatypes.S k + 1)
      with (Datatypes.S (Datatypes.S (2 * k + 1))) by lia.
    replace (2 * Datatypes.S k) with (Datatypes.S (Datatypes.S (2 * k))) by lia.
    change (count_forever_loop (Datatypes.S fuel) i)
      with (LogCount DebugPlugin.logger i :: Sleep 1 ::
            count_forever_loop fuel (i + 1)).
    rewrite !lookup_cons_ne_0 by lia. cbn [Nat.pred].
    split.
    + rewrite Hlog. f_equal. f_equal. lia.
    + exact Hsleep.
Qed.

(** X10: the counter coroutine logs the integers from 0 upwards, one per
    iteration and in order, and sleeps one second after each: in any
    number of iterations, iteration [k] logs [k]. *)
Theorem count_forever_counts (fuel k : nat) :
  k < fuel →
  count_forever fuel !! (2 * k) = Some (LogCount DebugPlugin.logger (Z.of_nat k))
  ∧ count_forever fuel !! (2 * k + 1) = Some (Sleep 1)
  ∧ length (count_forever fuel) = 2 * fuel.
Proof.
  intros Hk. unfold count_forever.
  destruct (count_forever_loop_lookup fuel 0 k Hk) as [Hlog Hsleep].
  split; [by rewrite Hlog|]. split; [exact Hsleep|].
  apply count_forever_loop_length.
Qed.

Lemma count_forever_counts_witness :
  count_forever 5 !! 6 = Some (LogCount DebugPlugin.logger 3).
Proof.
  destruct (count_forever_counts 5 3 ltac:(lia)) as (Hlog & _).
  exact Hlog.
Defined.
